(** * gulp-sass-embedded: a shallow embedding of [index.js]

    The plugin exports two pure helpers, [createCompileArguments] and
    [formatSassError], and a factory [gulpSassEmbedded] that plugs three hooks
    ([open], [transform], [destroy]) into a streamx [Transform].

    Conventions of the embedding.
    - A JavaScript value that the code inspects dynamically ([typeof],
      [===], [??], truthiness) is a [JsVal]; [option] stands for a property
      that may be [undefined]/[null].
    - Error objects are mutated in place by [formatSassError], so they live
      in a store ([gmap loc ErrorObj]) and are passed around by reference;
      a [catch] clause binds the thrown object itself.
    - Collaborators that are not part of the repository ([replace-ext],
      [node:url], [Buffer], [vinyl-sourcemaps-apply], [sass-embedded]) are the
      fields of a [Host] record; every definition is parametric in it.
    - [await] is sequential here: one asset is in flight at a time. *)

From Stdlib Require Import ZArith Ascii String List.
From stdpp Require Import base gmap strings list.

Open Scope string_scope.
Open Scope list_scope.

(** ** JavaScript values *)

Inductive JsVal :=
| VUndefined
| VNull
| VBool (b : bool)
| VNum (n : Z)
| VStr (s : string)
| VObj (id : positive).

#[global] Instance JsVal_eq_dec : EqDecision JsVal.
Proof. solve_decision. Defined.

(** [typeof v] *)
Definition typeof (v : JsVal) : string :=
  match v with
  | VUndefined => "undefined"
  | VNull => "object"
  | VBool _ => "boolean"
  | VNum _ => "number"
  | VStr _ => "string"
  | VObj _ => "object"
  end.

(** [a ?? b] on a property that may be missing. *)
Definition nullish {A} (a : option A) (b : A) : A :=
  match a with Some x => x | None => b end.

(** [a ?? b] when [b] may be missing too. *)
Definition nullishOpt {A} (a b : option A) : option A :=
  match a with Some x => Some x | None => b end.

(** [Boolean(x)] for a property that is an object when present. *)
Definition Boolean {A} (x : option A) : bool :=
  match x with Some _ => true | None => false end.

(** A destructuring default [{ x = d }]: it applies to [undefined] only. *)
Definition orDefault (v d : JsVal) : JsVal :=
  match v with VUndefined => d | _ => v end.

(** ** [Set]: insertion ordered, keyed by SameValueZero *)

Module JsSet.
Definition add (s : list JsVal) (x : JsVal) : list JsVal :=
  if decide (x ∈ s) then s else s ++ [x].

(** [new Set(iterable)] *)
Definition new (iterable : list JsVal) : list JsVal :=
  foldl add [] iterable.

(** [[...set]] *)
Definition spread (s : list JsVal) : list JsVal := s.
End JsSet.

(** ** Assets, options, compiler results *)

Definition Date := Z.
Definition Bytes := list Byte.byte.

Record URL := { href : string }.

Record RawSourceMap := {
  sm_file : option string;
  sm_sources : list string;
  sm_mappings : string }.

Record Stat := {
  atime : option Date;
  mtime : option Date;
  ctime : option Date }.

(** What [file.contents] can be for a Vinyl asset. *)
Inductive Contents :=
| CNull
| CStream
| CBuffer (b : Bytes).

Record Vinyl := {
  path : string;
  basename : string;
  extname : JsVal;
  dirname : JsVal;
  contents : Contents;
  sourceMap : option RawSourceMap;
  stat : option Stat }.

Definition isNull (file : Vinyl) : bool :=
  match contents file with CNull => true | _ => false end.

Definition isStream (file : Vinyl) : bool :=
  match contents file with CStream => true | _ => false end.

(** [file.contents.length]: only a buffer has one. *)
Definition contentsLength (file : Vinyl) : option nat :=
  match contents file with CBuffer b => Some (length b) | _ => None end.

(** The caller's configuration object. [opt_rest] holds every key the plugin
    does not read itself ([style], [importers], [functions], ...). *)
Record Options := {
  opt_loadPaths : option (list JsVal);
  opt_sync : bool;
  opt_rest : gmap string JsVal }.

Definition noOptions : Options :=
  {| opt_loadPaths := None; opt_sync := false; opt_rest := ∅ |}.

(** The object literal [{ ...options, url, sourceMap, ... }]: the caller's
    keys, shadowed by the five keys written after the spread. *)
Record CompileOptions := {
  co_spread : Options;
  co_url : URL;
  co_sourceMap : bool;
  co_sourceMapIncludeSources : bool;
  co_syntax : string;
  co_loadPaths : list JsVal }.

Record CompileResult := {
  css : string;
  res_sourceMap : option RawSourceMap }.

(** ** Error objects and the store they live in *)

(** Source positions are 0-based integer indices; [+ 1] on them is exact. *)
Record SourceLocation := {
  loc_line : option Z;
  loc_column : option Z }.

Record SourceSpan := { span_start : option SourceLocation }.

Record ErrorObj := {
  span : option SourceSpan;
  sassMessage : option string;
  message : option string;
  line : option Z;
  column : option Z;
  messageOriginal : option string;
  messageFormatted : option string;
  err_rest : gmap string JsVal }.

(** [new Error(msg)] / a built-in [TypeError]: only [message] is set. *)
Definition newError (msg : string) : ErrorObj :=
  {| span := None; sassMessage := None; message := Some msg;
     line := None; column := None;
     messageOriginal := None; messageFormatted := None; err_rest := ∅ |}.

Definition loc := positive.
Abbreviation Store := (gmap loc ErrorObj).

(** A thrown error object: one made for the occasion, given by its
    properties, or one that exists already, given by its reference. *)
Inductive Thrown :=
| Fresh (e : ErrorObj)
| Existing (l : loc).

(** The outcome of an expression that may throw; the thrown value is an
    error object or a nullish value ([None]). *)
Inductive Completion (A : Type) :=
| Normal (a : A)
| Throw (e : option Thrown).
Arguments Normal {A} a.
Arguments Throw {A} e.

(** ** Collaborators *)

Inductive Handle :=
| SyncCompiler (id : positive)
| AsyncCompiler (id : positive).

Record Host := {
  replaceExtension : string → string → string;
  pathToFileURL : string → URL;
  bufferToString : Bytes → string;
  bufferFrom : string → Bytes;
  applySourceMap : Vinyl → RawSourceMap → Vinyl;
  initCompiler : Completion Handle;
  initAsyncCompiler : Completion Handle;
  compileString : Handle → string → CompileOptions → Completion CompileResult;
  compileStringAsync : Handle → string → CompileOptions → Completion CompileResult;
  dispose : Handle → Completion unit;
  now : Date }.

Definition PLUGIN_NAME : string := "gulp-sass-embedded".

(** ** createCompileArguments *)

Section CompileArguments.
Context (host : Host).

(** [contents.toString()], where [contents] defaults to [''] for a
    missing asset; [null] has no methods, a stream inherits
    [Object.prototype.toString]. *)
Definition contentsToString (c : option Contents) : Completion string :=
  match c with
  | None => Normal ""
  | Some CNull =>
      Throw (Some (Fresh (newError
        "Cannot read properties of null (reading 'toString')")))
  | Some CStream => Normal "[object Object]"
  | Some (CBuffer b) => Normal (bufferToString host b)
  end.

(** The predicate of the [filter] call. *)
Definition isLoadPath (p : JsVal) : bool :=
  String.eqb (typeof p) "string"
  && match p with VStr s => (0 <? String.length s)%nat | _ => false end.

Definition createCompileArguments (file : option Vinyl) (options : Options)
  : Completion (string * CompileOptions) :=
  let path_ := match file with Some f => path f | None => "" end in
  let extname_ :=
    orDefault (match file with Some f => extname f | None => VUndefined end)
              (VStr "") in
  let dirname_ :=
    orDefault (match file with Some f => dirname f | None => VUndefined end)
              (VStr "") in
  let contents_ := match file with Some f => Some (contents f) | None => None end in
  let sourceMap_ := match file with Some f => sourceMap f | None => None end in
  let loadPaths := nullish (opt_loadPaths options) [] in
  let fileSyntax :=
    if decide (extname_ = VStr ".sass") then "indented"
    else if decide (extname_ = VStr ".css") then "css"
    else "scss" in
  match contentsToString contents_ with
  | Throw e => Throw e
  | Normal text =>
      Normal (text,
              {| co_spread := options;
                 co_url := pathToFileURL host path_;
                 co_sourceMap := Boolean sourceMap_;
                 co_sourceMapIncludeSources := Boolean sourceMap_;
                 co_syntax := fileSyntax;
                 co_loadPaths :=
                   JsSet.spread
                     (JsSet.new (filter (λ p, isLoadPath p = true)
                                        (dirname_ :: loadPaths))) |})
  end.
End CompileArguments.

(** ** formatSassError *)

Definition setPosition (l c : Z) (e : ErrorObj) : ErrorObj :=
  {| span := span e; sassMessage := sassMessage e; message := message e;
     line := Some l; column := Some c;
     messageOriginal := messageOriginal e;
     messageFormatted := messageFormatted e; err_rest := err_rest e |}.

Definition setMessages (orig fmt : option string) (e : ErrorObj) : ErrorObj :=
  {| span := span e; sassMessage := sassMessage e; message := message e;
     line := line e; column := column e;
     messageOriginal := orig; messageFormatted := fmt;
     err_rest := err_rest e |}.

(** [error?.span?.start] *)
Definition spanStart (e : ErrorObj) : option SourceLocation :=
  match span e with
  | Some sp => span_start sp
  | None => None
  end.

(** The assignments [formatSassError] performs on a supplied error object. *)
Definition annotate (error : ErrorObj) : ErrorObj :=
  let error1 :=
    match spanStart error with
    | Some start =>
        let line_ := nullish (loc_line start) 0%Z in
        let column_ := nullish (loc_column start) 0%Z in
        setPosition (line_ + 1) (column_ + 1) error
    | None => error
    end in
  setMessages (nullishOpt (sassMessage error1) (message error1))
              (message error1) error1.

(** [formatSassError(error)]: the reference it returns and the store after
    the call. [None] is a nullish argument. *)
Definition formatSassError (error : option loc) (σ : Store) : loc * Store :=
  match error with
  | None =>
      let l := fresh (dom σ) in
      (l, <[l := newError "No error message provided"]> σ)
  | Some l => (l, alter annotate l σ)
  end.

(** ** The transform stream *)

(** [new PluginError(plugin, cause, { showProperties })]: the cause is a
    message or a caught value (a reference, or [None] for a nullish one);
    [showProperties] is [true] unless the caller says otherwise. *)
Inductive PluginCause :=
| CauseMessage (msg : string)
| CauseThrown (err : option loc).

Record PluginError := {
  pe_plugin : string;
  pe_cause : PluginCause;
  pe_showProperties : bool }.

(** The message a plugin error takes from its cause: the message string, or
    the [message] of the wrapped error object. *)
Definition causeMessage (cause : PluginCause) (σ : Store) : option string :=
  match cause with
  | CauseMessage msg => Some msg
  | CauseThrown (Some l) =>
      match σ !! l with
      | Some e => message e
      | None => None
      end
  | CauseThrown None => None
  end.

(** [new PluginError(PLUGIN_NAME, cause, { showProperties })] as plugin-error
    constructs it: the constructor throws 'Missing error message' ([None])
    when the cause is nullish or its message is missing or empty. *)
Definition newPluginError (cause : PluginCause) (showProperties : bool)
    (σ : Store) : option PluginError :=
  match causeMessage cause σ with
  | Some msg =>
      if String.eqb msg "" then None
      else Some {| pe_plugin := PLUGIN_NAME; pe_cause := cause;
                   pe_showProperties := showProperties |}
  | None => None
  end.

(** How a hook calls back: [callback()], [callback(null, file)],
    [callback(error)]; or not at all, when the hook throws out of its own
    [catch] clause (its promise rejects and the stream waits for ever). *)
Inductive Callback :=
| CbDone
| CbPush (file : Vinyl)
| CbError (error : PluginError)
| CbNever.

(** What a run leaves behind: the error objects, the compile and dispose
    calls the compiler received, the events emitted on the stream. *)
Record World := {
  store : Store;
  compileCalls : list (Handle * string * CompileOptions);
  disposeCalls : list Handle;
  emitted : list (string * PluginError) }.

Definition setStore (σ : Store) (w : World) : World :=
  {| store := σ; compileCalls := compileCalls w;
     disposeCalls := disposeCalls w; emitted := emitted w |}.

Definition logCompile (c : Handle * string * CompileOptions) (w : World) : World :=
  {| store := store w; compileCalls := compileCalls w ++ [c];
     disposeCalls := disposeCalls w; emitted := emitted w |}.

Definition logDispose (h : Handle) (w : World) : World :=
  {| store := store w; compileCalls := compileCalls w;
     disposeCalls := disposeCalls w ++ [h]; emitted := emitted w |}.

(** [this.emit(name, e)]: the event is recorded. (An ['error'] event is
    delivered to a listener; the tests attach one.) *)
Definition emit (name : string) (e : PluginError) (w : World) : World :=
  {| store := store w; compileCalls := compileCalls w;
     disposeCalls := disposeCalls w; emitted := emitted w ++ [(name, e)] |}.

(** A [catch (error)] clause binds the thrown value itself: an object made
    for the occasion enters the store, an existing one is bound as it is. *)
Definition catch (thrown : option Thrown) (σ : Store) : option loc * Store :=
  match thrown with
  | None => (None, σ)
  | Some (Fresh e) => let l := fresh (dom σ) in (Some l, <[l := e]> σ)
  | Some (Existing l) => (Some l, σ)
  end.

Definition setPath (p : string) (f : Vinyl) : Vinyl :=
  {| path := p; basename := basename f; extname := extname f;
     dirname := dirname f; contents := contents f;
     sourceMap := sourceMap f; stat := stat f |}.

Definition setContents (c : Contents) (f : Vinyl) : Vinyl :=
  {| path := path f; basename := basename f; extname := extname f;
     dirname := dirname f; contents := c;
     sourceMap := sourceMap f; stat := stat f |}.

Definition setStat (s : option Stat) (f : Vinyl) : Vinyl :=
  {| path := path f; basename := basename f; extname := extname f;
     dirname := dirname f; contents := contents f;
     sourceMap := sourceMap f; stat := s |}.

(** How a run ends short of its last asset: with a plugin error passed to a
    callback, or stalled. *)
Inductive Failure :=
| Reported (error : PluginError)
| Stalled.

(** A reported plugin error reads as a failure where one is expected. *)
Coercion Reported : PluginError >-> Failure.
#[local] Arguments Some {A} & a.

Section GulpSassEmbedded.
Context (host : Host).
Context (options : Options).

(** The closure variable [compiler]. *)
Definition CompilerVar := option Handle.

Definition open (w : World) : Callback * CompilerVar * World :=
  match (if opt_sync options then initCompiler host
         else initAsyncCompiler host) with
  | Normal h => (CbDone, Some h, w)
  | Throw thrown =>
      let '(error, σ) := catch thrown (store w) in
      match newPluginError (CauseThrown error) true σ with
      | Some e => (CbError e, None, setStore σ w)
      | None => (CbNever, None, setStore σ w)
      end
  end.

(** The [catch] clause of [transform]. *)
Definition transformCatch (thrown : option Thrown) (w : World)
  : Callback * World :=
  let '(error, σ) := catch thrown (store w) in
  let '(l, σ') := formatSassError error σ in
  match newPluginError (CauseThrown (Some l)) false σ' with
  | Some e => (CbError e, setStore σ' w)
  | None => (CbNever, setStore σ' w)
  end.

(** The compile call, in the configured mode. Reading a method of an
    [undefined] compiler throws. *)
Definition compile (compiler : CompilerVar) (args : string * CompileOptions)
    (w : World) : Completion CompileResult * World :=
  match compiler with
  | None =>
      (Throw (Some (Fresh (newError
         (if opt_sync options
          then "Cannot read properties of undefined (reading 'compileString')"
          else "Cannot read properties of undefined (reading 'compileStringAsync')")))),
       w)
  | Some h =>
      ((if opt_sync options
        then compileString host h (fst args) (snd args)
        else compileStringAsync host h (fst args) (snd args)),
       logCompile (h, fst args, snd args) w)
  end.

Definition stampStat (file : Vinyl) : Vinyl :=
  match stat file with
  | Some _ =>
      setStat (Some {| atime := Some (now host); mtime := Some (now host);
                       ctime := Some (now host) |}) file
  | None => file
  end.

Definition mergeSourceMap (sm : option RawSourceMap) (file : Vinyl) : Vinyl :=
  match sm with
  | Some m =>
      applySourceMap host file
        {| sm_file := Some (nullish (sm_file m) (path file));
           sm_sources := sm_sources m; sm_mappings := sm_mappings m |}
  | None => file
  end.

Definition transform (compiler : CompilerVar) (file : Vinyl) (w : World)
  : Callback * World :=
  if isNull file then (CbPush file, w)
  else if isStream file then
    (CbError {| pe_plugin := PLUGIN_NAME;
                pe_cause := CauseMessage "Streams are not supported!";
                pe_showProperties := true |}, w)
  else if String.prefix "_" (basename file) then (CbDone, w)
  else if bool_decide (contentsLength file = Some 0%nat) then
    (CbPush (setPath (replaceExtension host (path file) ".css") file), w)
  else
    match createCompileArguments host (Some file) options with
    | Throw thrown => transformCatch thrown w
    | Normal compileArguments =>
        match compile compiler compileArguments w with
        | (Throw thrown, w1) => transformCatch thrown w1
        | (Normal r, w1) =>
            let file1 := setContents (CBuffer (bufferFrom host (css r))) file in
            let file2 :=
              setPath (replaceExtension host (path file1) ".css") file1 in
            let file3 := stampStat file2 in
            (CbPush (mergeSourceMap (res_sourceMap r) file3), w1)
        end
    end.

Definition destroy (compiler : CompilerVar) (w : World) : Callback * World :=
  match compiler with
  | Some h =>
      match dispose host h with
      | Normal _ => (CbDone, logDispose h w)
      | Throw thrown =>
          let w1 := logDispose h w in
          let '(error, σ) := catch thrown (store w1) in
          match newPluginError (CauseThrown error) false σ with
          | Some e => (CbDone, emit "error" e (setStore σ w1))
          | None => (CbNever, setStore σ w1)
          end
      end
  | None => (CbDone, w)
  end.

Definition isCompilerInitialized (compiler : CompilerVar) : bool :=
  match compiler with
  | Some (SyncCompiler _) => opt_sync options
  | Some (AsyncCompiler _) => negb (opt_sync options)
  | None => false
  end.

(** *** The stream that drives the hooks

    streamx calls [open] once before the first asset, [transform] once per
    written asset in arrival order, and [destroy] once when the stream ends
    or is torn down by an error; an error passed to a callback tears the
    stream down, so no later asset reaches [transform]. Every next step
    waits for the callback of the one before: a hook that never calls back
    stalls the stream, and nothing after it runs. *)

Record Run := {
  output : list Vinyl;
  failure : option Failure;
  world : World }.

Fixpoint writeAll (compiler : CompilerVar) (files : list Vinyl) (w : World)
  : Run :=
  match files with
  | [] => {| output := []; failure := None; world := w |}
  | file :: rest =>
      match transform compiler file w with
      | (CbPush file', w1) =>
          let r := writeAll compiler rest w1 in
          {| output := file' :: output r; failure := failure r;
             world := world r |}
      | (CbDone, w1) => writeAll compiler rest w1
      | (CbError e, w1) =>
          {| output := []; failure := Some (Reported e); world := w1 |}
      | (CbNever, w1) =>
          {| output := []; failure := Some Stalled; world := w1 |}
      end
  end.

Definition gulpSassEmbedded (files : list Vinyl) (w : World) : Run :=
  match open w with
  | (CbError e, compiler, w1) =>
      {| output := []; failure := Some (Reported e);
         world := snd (destroy compiler w1) |}
  | (CbNever, compiler, w1) =>
      {| output := []; failure := Some Stalled; world := w1 |}
  | (_, compiler, w1) =>
      let r := writeAll compiler files w1 in
      match failure r with
      | Some Stalled => r
      | _ =>
          {| output := output r; failure := failure r;
             world := snd (destroy compiler (world r)) |}
      end
  end.
End GulpSassEmbedded.

(** [gulpSassEmbedded.sync(options)]: the same stream with
    [{ ...options, sync: true }]. *)
Definition gulpSassEmbedded_sync (host : Host) (options : Options)
    (files : list Vinyl) (w : World) : Run :=
  gulpSassEmbedded host
    {| opt_loadPaths := opt_loadPaths options; opt_sync := true;
       opt_rest := opt_rest options |}
    files w.

(** ** The search-path list, as the specification words it

    De-duplication that keeps the first occurrence of every entry and the
    order of those first occurrences. *)

Fixpoint firstSeen (seen l : list JsVal) : list JsVal :=
  match l with
  | [] => []
  | x :: r =>
      if decide (x ∈ seen) then firstSeen seen r
      else x :: firstSeen (x :: seen) r
  end.

Definition dedupFirstSeen (l : list JsVal) : list JsVal := firstSeen [] l.

(** A usable search path: a string that is not empty. *)
Definition usablePath (p : JsVal) : Prop :=
  ∃ s, p = VStr s ∧ s ≠ "".

Definition searchPathsSpec (directory : JsVal) (callerPaths : list JsVal)
  : list JsVal :=
  dedupFirstSeen (filter (λ p, isLoadPath p = true) (directory :: callerPaths)).

(** The dialect table of the specification. *)
Definition dialectOf (extension : JsVal) : string :=
  match extension with
  | VStr s =>
      if String.eqb s ".sass" then "indented"
      else if String.eqb s ".css" then "css"
      else "scss"
  | _ => "scss"
  end.

(** ** A concrete host, for running the definitions

    [replaceExt] follows replace-ext on plain relative or absolute paths:
    the part of the last segment after its last dot is replaced. *)

Fixpoint dropExt (rev_path : list Ascii.ascii) : option (list Ascii.ascii) :=
  match rev_path with
  | [] => None
  | c :: rest =>
      if Ascii.eqb c "/"%char then None
      else if Ascii.eqb c "."%char then
        match rest with
        | [] => None
        | d :: _ => if Ascii.eqb d "/"%char then None else Some (rev rest)
        end
      else dropExt rest
  end.

Definition replaceExt (npath ext : string) : string :=
  if String.eqb npath "" then npath
  else
    match dropExt (rev (list_ascii_of_string npath)) with
    | Some stem => string_of_list_ascii stem +:+ ext
    | None => npath +:+ ext
    end.

Definition okCompiler (h : Handle) (text : string) (o : CompileOptions)
  : Completion CompileResult :=
  Normal {| css := text; res_sourceMap := None |}.

Definition testHost : Host :=
  {| replaceExtension := replaceExt;
     pathToFileURL := λ p, {| href := "file://" +:+ p |};
     bufferToString := string_of_list_byte;
     bufferFrom := list_byte_of_string;
     applySourceMap := λ f m,
       {| path := path f; basename := basename f; extname := extname f;
          dirname := dirname f; contents := contents f;
          sourceMap := Some m; stat := stat f |};
     initCompiler := Normal (SyncCompiler 1);
     initAsyncCompiler := Normal (AsyncCompiler 1);
     compileString := okCompiler;
     compileStringAsync := okCompiler;
     dispose := λ _, Normal tt;
     now := 1700000000000%Z |}.


Definition emptyWorld : World :=
  {| store := ∅; compileCalls := []; disposeCalls := []; emitted := [] |}.

Definition mkFile (dir name ext : string) (c : Contents) : Vinyl :=
  {| path := dir +:+ "/" +:+ name +:+ ext; basename := name +:+ ext;
     extname := VStr ext; dirname := VStr dir; contents := c;
     sourceMap := None; stat := None |}.

Definition emptyScss : Vinyl := mkFile "/scss" "empty" ".scss" (CBuffer []).
Definition emptyPartial : Vinyl := mkFile "/scss" "_empty" ".scss" (CBuffer []).
Definition partialScss : Vinyl :=
  mkFile "/scss" "_partial" ".scss" (CBuffer (list_byte_of_string "a { b: c }")).
Definition styleScss : Vinyl :=
  mkFile "/scss" "style" ".scss"
         (CBuffer (list_byte_of_string "body { color: red; }")).
Definition streamFile : Vinyl := mkFile "/scss" "style" ".scss" CStream.

Definition indentSass : Vinyl :=
  mkFile "/scss" "indent" ".sass" (CBuffer (list_byte_of_string "a
  b: c")).

Definition withLoadPaths (paths : list JsVal) : Options :=
  {| opt_loadPaths := Some paths; opt_sync := false; opt_rest := ∅ |}.

Definition sassError (sp : option SourceSpan) (sassMsg msg : option string)
  : ErrorObj :=
  {| span := sp; sassMessage := sassMsg; message := msg;
     line := None; column := None;
     messageOriginal := None; messageFormatted := None; err_rest := ∅ |}.

Definition spanAt (l c : option Z) : option SourceSpan :=
  Some {| span_start := Some {| loc_line := l; loc_column := c |} |}.

Definition streamsNotSupported : PluginError :=
  {| pe_plugin := PLUGIN_NAME;
     pe_cause := CauseMessage "Streams are not supported!";
     pe_showProperties := true |}.

(** ** Vocabulary for the properties of a run *)

(** The assets that pass the four guards of [transform] and reach the
    compiler. *)
Definition needsCompile (file : Vinyl) : bool :=
  negb (isNull file) && negb (isStream file)
  && negb (String.prefix "_" (basename file))
  && negb (bool_decide (contentsLength file = Some 0%nat)).

(** The assets [transform] answers with a file when nothing fails: all but
    the buffered ones named like a partial. *)
Definition emits (file : Vinyl) : bool :=
  isNull file || negb (String.prefix "_" (basename file)).

(** The compiler entry point of the configured mode. *)
Definition entryPoint (host : Host) (options : Options)
  : Handle → string → CompileOptions → Completion CompileResult :=
  if opt_sync options then compileString host else compileStringAsync host.

(** The factory of the configured mode. *)
Definition factory (host : Host) (options : Options) : Completion Handle :=
  if opt_sync options then initCompiler host else initAsyncCompiler host.

(** The compile call an asset gives rise to, if it reaches the compiler. *)
Definition compileCallFor (host : Host) (options : Options) (h : Handle)
    (file : Vinyl) : option (Handle * string * CompileOptions) :=
  if needsCompile file then
    match createCompileArguments host (Some file) options with
    | Normal args => Some (h, fst args, snd args)
    | Throw _ => None
    end
  else None.

(** A host with other asynchronous entry points, and one with other
    synchronous ones. *)
Definition withAsync (host : Host) (init : Completion Handle)
    (comp : Handle → string → CompileOptions → Completion CompileResult)
  : Host :=
  {| replaceExtension := replaceExtension host;
     pathToFileURL := pathToFileURL host;
     bufferToString := bufferToString host;
     bufferFrom := bufferFrom host;
     applySourceMap := applySourceMap host;
     initCompiler := initCompiler host;
     initAsyncCompiler := init;
     compileString := compileString host;
     compileStringAsync := comp;
     dispose := dispose host;
     now := now host |}.

Definition withSync (host : Host) (init : Completion Handle)
    (comp : Handle → string → CompileOptions → Completion CompileResult)
  : Host :=
  {| replaceExtension := replaceExtension host;
     pathToFileURL := pathToFileURL host;
     bufferToString := bufferToString host;
     bufferFrom := bufferFrom host;
     applySourceMap := applySourceMap host;
     initCompiler := init;
     initAsyncCompiler := initAsyncCompiler host;
     compileString := comp;
     compileStringAsync := compileStringAsync host;
     dispose := dispose host;
     now := now host |}.

Definition syncOptions (options : Options) : Options :=
  {| opt_loadPaths := opt_loadPaths options; opt_sync := true;
     opt_rest := opt_rest options |}.

(** A compiler that rejects every input with a Sass exception at 0-based
    line 0, column 13. *)
Definition expectedExpression : ErrorObj :=
  sassError (spanAt (Some 0%Z) (Some 13%Z)) (Some "Expected expression.")
            (Some "Expected expression. (formatted)").

Definition rejectingCompiler (h : Handle) (text : string) (o : CompileOptions)
  : Completion CompileResult :=
  Throw (Some (Fresh expectedExpression)).

Definition rejectingHost : Host :=
  withSync (withAsync testHost (initAsyncCompiler testHost) rejectingCompiler)
           (initCompiler testHost) rejectingCompiler.

(** A compiler that returns a source map without a [file] field. *)
Definition bareMap : RawSourceMap :=
  {| sm_file := None; sm_sources := ["file:///scss/style.scss"];
     sm_mappings := "AAAA" |}.

Definition mappingCompiler (h : Handle) (text : string) (o : CompileOptions)
  : Completion CompileResult :=
  Normal {| css := text; res_sourceMap := Some bareMap |}.

Definition mappingHost : Host :=
  withSync (withAsync testHost (initAsyncCompiler testHost) mappingCompiler)
           (initCompiler testHost) mappingCompiler.

(** A host whose factories throw [new Error('Initialization error')]. *)
Definition failingInitHost : Host :=
  withSync (withAsync testHost
              (Throw (Some (Fresh (newError "Initialization error"))))
              okCompiler)
           (Throw (Some (Fresh (newError "Initialization error")))) okCompiler.

(** The error object a [catch] clause binds, its reference, and the store
    once it is bound. *)
Definition thrownObject (t : Thrown) (σ : Store) : option ErrorObj :=
  match t with
  | Fresh e => Some e
  | Existing l => σ !! l
  end.

Definition caughtAt (t : Thrown) (σ : Store) : loc :=
  match t with
  | Fresh _ => fresh (dom σ)
  | Existing l => l
  end.

Definition storeWith (t : Thrown) (σ : Store) : Store :=
  match t with
  | Fresh e => <[fresh (dom σ) := e]> σ
  | Existing _ => σ
  end.

(** An error object a plugin error can be made from: it has a message that
    is not empty. *)
Definition hasMessage (e : ErrorObj) : Prop :=
  ∃ msg, message e = Some msg ∧ msg ≠ "".

Definition hasMessageb (e : ErrorObj) : bool :=
  match message e with
  | Some msg => negb (String.eqb msg "")
  | None => false
  end.

(** A compiler that rejects every input with [new Error('')], and a host
    whose [dispose] throws [new Error('')]. *)
Definition mutedCompiler (h : Handle) (text : string) (o : CompileOptions)
  : Completion CompileResult :=
  Throw (Some (Fresh (newError ""))).

Definition mutedHost : Host :=
  withSync (withAsync testHost (initAsyncCompiler testHost) mutedCompiler)
           (initCompiler testHost) mutedCompiler.


(** A compiler that throws the error object at reference 1 again. *)
Definition rethrowingCompiler (h : Handle) (text : string) (o : CompileOptions)
  : Completion CompileResult :=
  Throw (Some (Existing 1%positive)).

Definition rethrowingHost : Host :=
  withSync (withAsync testHost (initAsyncCompiler testHost) rethrowingCompiler)
           (initCompiler testHost) rethrowingCompiler.

Definition worldWithError : World :=
  {| store := {[ 1%positive := expectedExpression ]};
     compileCalls := []; disposeCalls := []; emitted := [] |}.

Definition invalidScss : Vinyl :=
  mkFile "/scss" "invalid" ".scss"
         (CBuffer (list_byte_of_string "body { font: ; }")).

Definition nullFile : Vinyl := mkFile "/scss" "dir" "" CNull.

Definition statted (file : Vinyl) : Vinyl :=
  setStat (Some {| atime := None; mtime := Some 1577836800000%Z;
                   ctime := None |}) file.

(** * Results *)

(** ** The definitions at work *)

Example replaceExt_scss : replaceExt "/scss/empty.scss" ".css" = "/scss/empty.css".
Proof. reflexivity. Qed.

Example emptyScss_forwarded :
  transform testHost noOptions (Some (AsyncCompiler 1)) emptyScss emptyWorld
  = (CbPush (setPath "/scss/empty.css" emptyScss), emptyWorld).
Proof. reflexivity. Qed.

Example partialScss_dropped :
  transform testHost noOptions (Some (AsyncCompiler 1)) partialScss emptyWorld
  = (CbDone, emptyWorld).
Proof. reflexivity. Qed.

Example sync_run_uses_sync_compiler :
  compileCalls (world (gulpSassEmbedded_sync testHost noOptions [styleScss]
                         emptyWorld)) !! 0%nat
  = Some (SyncCompiler 1, "body { color: red; }",
          {| co_spread := {| opt_loadPaths := None; opt_sync := true;
                             opt_rest := ∅ |};
             co_url := {| href := "file:///scss/style.scss" |};
             co_sourceMap := false; co_sourceMapIncludeSources := false;
             co_syntax := "scss"; co_loadPaths := [VStr "/scss"] |}).
Proof. vm_compute. reflexivity. Qed.

Example run_two :
  output (gulpSassEmbedded testHost noOptions [partialScss; styleScss] emptyWorld)
  = [setPath "/scss/style.css" styleScss].
Proof. vm_compute. reflexivity. Qed.

(** ** The JavaScript [Set] against first-seen de-duplication *)

Section Dedup.
Implicit Types (l acc seen : list JsVal) (x y : JsVal).

Lemma firstSeen_ext l : ∀ seen1 seen2,
  (∀ y, y ∈ seen1 ↔ y ∈ seen2) → firstSeen seen1 l = firstSeen seen2 l.
Proof.
  induction l as [|x l IH]; intros seen1 seen2 Hext; simpl; [done|].
  destruct (decide (x ∈ seen1)) as [H1|H1];
    destruct (decide (x ∈ seen2)) as [H2|H2];
    try (exfalso; apply Hext in H1 || apply Hext in H2; tauto).
  - by apply IH.
  - f_equal. apply IH. intros y. rewrite !elem_of_cons, Hext. tauto.
Qed.

Lemma firstSeen_elem l : ∀ seen x, x ∈ firstSeen seen l ↔ x ∈ l ∧ x ∉ seen.
Proof.
  induction l as [|z l IH]; intros seen x; simpl.
  - rewrite elem_of_nil. tauto.
  - destruct (decide (z ∈ seen)) as [Hz|Hz].
    + rewrite IH, elem_of_cons. split; [tauto|].
      intros [[->|?] ?]; tauto.
    + rewrite !elem_of_cons, IH, elem_of_cons.
      destruct (decide (x = z)) as [->|]; tauto.
Qed.



(** Having seen [x] is the same as not meeting it again. *)
Lemma firstSeen_seen_filter l : ∀ seen x,
  firstSeen (x :: seen) l = firstSeen seen (filter (λ y, y ≠ x) l).
Proof.
  induction l as [|z l IH]; intros seen x; simpl; [done|].
  rewrite filter_cons. destruct (decide (z = x)) as [->|Hzx].
  - rewrite decide_True by (rewrite elem_of_cons; tauto).
    rewrite decide_False by tauto. apply IH.
  - rewrite (decide_True (P := z ≠ x)) by done. simpl.
    destruct (decide (z ∈ seen)) as [Hz|Hz].
    + rewrite decide_True by (rewrite elem_of_cons; tauto). apply IH.
    + rewrite decide_False by (rewrite elem_of_cons; tauto).
      f_equal. rewrite <- IH. apply firstSeen_ext.
      intros y. rewrite !elem_of_cons. tauto.
Qed.


(** The equation that defines first-seen de-duplication: the head stays,
    its later copies go. *)
Lemma dedupFirstSeen_cons x l :
  dedupFirstSeen (x :: l) = x :: dedupFirstSeen (filter (λ y, y ≠ x) l).
Proof.
  unfold dedupFirstSeen. simpl. f_equal. apply firstSeen_seen_filter.
Qed.

Lemma foldl_add_firstSeen l : ∀ acc,
  foldl JsSet.add acc l = acc ++ firstSeen acc l.
Proof.
  induction l as [|x l IH]; intros acc; simpl.
  - by rewrite app_nil_r.
  - unfold JsSet.add at 2. destruct (decide (x ∈ acc)) as [Hin|Hout].
    + apply IH.
    + rewrite IH, <- app_assoc. simpl. do 2 f_equal.
      apply firstSeen_ext. intros y.
      rewrite elem_of_app, !elem_of_cons, elem_of_nil. tauto.
Qed.

Lemma JsSet_new_dedup l : JsSet.spread (JsSet.new l) = dedupFirstSeen l.
Proof. unfold JsSet.spread, JsSet.new. by rewrite foldl_add_firstSeen. Qed.

Lemma dedupFirstSeen_elem l x : x ∈ dedupFirstSeen l ↔ x ∈ l.
Proof.
  unfold dedupFirstSeen. rewrite firstSeen_elem.
  split; [tauto|]. intros Hx. split; [done|]. apply not_elem_of_nil.
Qed.




End Dedup.

Lemma isLoadPath_spec p : isLoadPath p = true ↔ usablePath p.
Proof.
  unfold isLoadPath, usablePath. destruct p as [| | | |s|]; simpl;
    try (split; [done|intros (?&?&?); done]).
  destruct s; simpl; split; try done; eauto.
  intros (?&[= <-]&?). done.
Qed.

(** ** createCompileArguments: results *)

(** The builder throws on exactly one input, an asset whose contents are
    [null]; on every other input it returns the pair below. *)
Lemma createCompileArguments_returns host file options :
  match createCompileArguments host file options with
  | Normal (text, co) =>
      contentsToString host (contents <$> file) = Normal text
      ∧ co_spread co = options
      ∧ co_syntax co
        = dialectOf (match file with Some f => extname f | None => VUndefined end)
      ∧ co_loadPaths co
        = searchPathsSpec
            (orDefault (match file with Some f => dirname f | None => VUndefined end)
                       (VStr ""))
            (nullish (opt_loadPaths options) [])
  | Throw _ => ∃ f, file = Some f ∧ contents f = CNull
  end.
Proof.
  unfold createCompileArguments.
  replace (match file with Some f => Some (contents f) | None => None end)
    with (contents <$> file) by (by destruct file).
  destruct (contentsToString host (contents <$> file)) as [text|e] eqn:Htext.
  - split; [done|]. split; [done|]. split; simpl.
    + destruct file as [f|]; simpl; [|done].
      destruct (extname f) as [| | | |s|]; simpl; try done.
      destruct (String.eqb_spec s ".sass") as [->|Hsass]; [done|].
      rewrite decide_False by congruence.
      destruct (String.eqb_spec s ".css") as [->|Hcss]; [done|].
      by rewrite decide_False by congruence.
    + unfold searchPathsSpec. apply JsSet_new_dedup.
  - destruct file as [f|]; simpl in Htext; [|done].
    exists f. split; [done|]. by destruct (contents f).
Qed.

(** C7. The dialect handed to the compiler is a function of the asset's
    extension alone: ['.sass'] gives ['indented'], ['.css'] gives ['css'],
    and every other extension, the empty one and a missing one included,
    gives ['scss']. (The builder returns for every asset but one whose
    contents are [null].) *)
Theorem createCompileArguments_syntax host file options :
  let extension :=
    match file with Some f => extname f | None => VUndefined end in
  match createCompileArguments host file options with
  | Normal (_, co) =>
      co_syntax co = dialectOf extension
      ∧ (extension = VStr ".sass" → co_syntax co = "indented")
      ∧ (extension = VStr ".css" → co_syntax co = "css")
      ∧ (extension ≠ VStr ".sass" → extension ≠ VStr ".css" →
         co_syntax co = "scss")
      ∧ (extension = VStr "" ∨ extension = VUndefined → co_syntax co = "scss")
  | Throw _ => ∃ f, file = Some f ∧ contents f = CNull
  end.
Proof.
  intros extension.
  pose proof (createCompileArguments_returns host file options) as H.
  destruct (createCompileArguments host file options) as [[text co]|e]; [|done].
  destruct H as (_ & _ & Hsyn & _). fold extension in Hsyn.
  rewrite Hsyn. split; [done|].
  split; [by intros ->|]. split; [by intros ->|].
  split; [|by intros [->| ->]].
  intros Hsass Hcss. destruct extension as [| | | |s|]; simpl; try done.
  destruct (String.eqb_spec s ".sass") as [->|_]; [done|].
  by destruct (String.eqb_spec s ".css") as [->|_].
Qed.

Lemma createCompileArguments_syntax_witness :
  ∃ text co,
    createCompileArguments testHost (Some indentSass) noOptions
    = Normal (text, co)
    ∧ co_syntax co = "indented".
Proof.
  pose proof (createCompileArguments_syntax testHost (Some indentSass) noOptions)
    as H.
  destruct (createCompileArguments testHost (Some indentSass) noOptions)
    as [[text co]|e].
  - exists text, co. split; [reflexivity|].
    destruct H as (_ & H & _). apply H. reflexivity.
  - exfalso. destruct H as (f & Hf & Hc). injection Hf as <-. discriminate Hc.
Defined.



(** C9, as stated, fails: with a missing asset the search-path list still
    holds the caller's own search paths. *)
Lemma createCompileArguments_null_keeps_caller_paths :
  ∃ co, createCompileArguments testHost None (withLoadPaths [VStr "/custom/path"])
        = Normal ("", co)
        ∧ co_loadPaths co = [VStr "/custom/path"]
        ∧ co_loadPaths co ≠ [].
Proof. eexists. split; [reflexivity|]. split; [reflexivity|discriminate]. Qed.

(** C9, amended. For a missing asset the builder does not throw; it returns
    the empty source text and a search-path list to which the asset adds
    nothing: the caller's usable search paths, de-duplicated, and so the
    empty list when the caller supplies none. *)
Theorem createCompileArguments_null host options :
  ∃ co, createCompileArguments host None options = Normal ("", co)
        ∧ co_loadPaths co
          = dedupFirstSeen (filter (λ p, isLoadPath p = true)
                                   (nullish (opt_loadPaths options) []))
        ∧ (opt_loadPaths options = None → co_loadPaths co = [])
        ∧ (opt_loadPaths options = Some [] → co_loadPaths co = []).
Proof.
  pose proof (createCompileArguments_returns host None options) as H.
  destruct (createCompileArguments host None options) as [[text co]|e].
  - destruct H as (Htext & _ & _ & Hpaths). simpl in Htext.
    injection Htext as <-. exists co. split; [done|].
    unfold searchPathsSpec in Hpaths. simpl in Hpaths.
    rewrite filter_cons, decide_False in Hpaths by done.
    split; [done|]. rewrite Hpaths.
    split; by intros ->.
  - by destruct H as (f & ? & _).
Qed.

Lemma createCompileArguments_null_witness :
  ∃ co, createCompileArguments testHost None noOptions = Normal ("", co)
        ∧ co_loadPaths co = [].
Proof.
  destruct (createCompileArguments_null testHost noOptions)
    as (co & Hco & _ & Hnone & _).
  exists co. split; [exact Hco|]. apply Hnone. reflexivity.
Defined.

(** ** formatSassError: results *)

Example formatSassError_span :
  snd (formatSassError (Some 1%positive)
         {[ 1%positive :=
              sassError (spanAt (Some 5%Z) (Some 10%Z)) None
                        (Some "Sass error occurred") ]}) !! 1%positive
  = Some {| span := spanAt (Some 5%Z) (Some 10%Z); sassMessage := None;
            message := Some "Sass error occurred";
            line := Some 6%Z; column := Some 11%Z;
            messageOriginal := Some "Sass error occurred";
            messageFormatted := Some "Sass error occurred"; err_rest := ∅ |}.
Proof. reflexivity. Qed.

Lemma annotate_reads_kept e :
  span (annotate e) = span e
  ∧ sassMessage (annotate e) = sassMessage e
  ∧ message (annotate e) = message e
  ∧ err_rest (annotate e) = err_rest e.
Proof. unfold annotate. by destruct (spanStart e). Qed.

Lemma annotate_messages e :
  messageOriginal (annotate e) = nullishOpt (sassMessage e) (message e)
  ∧ messageFormatted (annotate e) = message e.
Proof. unfold annotate. by destruct (spanStart e). Qed.

Lemma annotate_position e :
  match spanStart e with
  | Some start =>
      line (annotate e) = Some (nullish (loc_line start) 0 + 1)%Z
      ∧ column (annotate e) = Some (nullish (loc_column start) 0 + 1)%Z
  | None => line (annotate e) = line e ∧ column (annotate e) = column e
  end.
Proof. unfold annotate. by destruct (spanStart e). Qed.

Lemma annotate_idempotent e : annotate (annotate e) = annotate e.
Proof.
  unfold annotate, spanStart. destruct e as [[[[st|]]|] sm m l c mo mf r]; done.
Qed.

Lemma formatSassError_object l σ e :
  σ !! l = Some e →
  ∃ σ', formatSassError (Some l) σ = (l, σ')
    ∧ σ' !! l = Some (annotate e)
    ∧ ∀ l', l' ≠ l → σ' !! l' = σ !! l'.
Proof.
  intros Hl. eexists. split; [reflexivity|]. split.
  - by rewrite lookup_alter_eq, Hl.
  - intros l' Hne. by rewrite lookup_alter_ne.
Qed.

Lemma formatSassError_nullish σ :
  ∃ l σ', formatSassError None σ = (l, σ')
    ∧ (l ∉ dom σ)
    ∧ σ' !! l = Some (newError "No error message provided")
    ∧ ∀ l', l' ∈ dom σ → σ' !! l' = σ !! l'.
Proof.
  eexists _, _. split; [reflexivity|]. split; [apply is_fresh|].
  split; [apply lookup_insert_eq|].
  intros l' Hl'. apply lookup_insert_ne. intros <-.
  by apply (is_fresh (dom σ)).
Qed.

(** C5. For an error object whose span has a start point, [line] and
    [column] become the start's line and column plus one, a field the start
    lacks counting as 0 (so a start without either gives [line = 1],
    [column = 1]); for an error object without a span, or whose span has no
    start, [line] and [column] are not written: they stay as they were,
    unset when they were unset. *)
Theorem formatSassError_position l σ e :
  σ !! l = Some e →
  ∃ σ' e', formatSassError (Some l) σ = (l, σ')
    ∧ σ' !! l = Some e'
    ∧ (∀ start L C, spanStart e = Some start →
         loc_line start = Some L → loc_column start = Some C →
         line e' = Some (L + 1)%Z ∧ column e' = Some (C + 1)%Z)
    ∧ (∀ start, spanStart e = Some start →
         line e' = Some (nullish (loc_line start) 0 + 1)%Z
         ∧ column e' = Some (nullish (loc_column start) 0 + 1)%Z)
    ∧ (∀ start, spanStart e = Some start →
         loc_line start = None → loc_column start = None →
         line e' = Some 1%Z ∧ column e' = Some 1%Z)
    ∧ (spanStart e = None → line e' = line e ∧ column e' = column e)
    ∧ (spanStart e = None → line e = None → column e = None →
         line e' = None ∧ column e' = None).
Proof.
  intros Hl. destruct (formatSassError_object l σ e Hl) as (σ' & Hfmt & Hsnd & _).
  exists σ', (annotate e). split; [done|]. split; [done|].
  pose proof (annotate_position e) as Hpos.
  destruct (spanStart e) as [start|]; destruct Hpos as [Hline Hcol].
  - rewrite Hline, Hcol. split; [|split; [|split; [|split]]]; try done.
    + intros ? L C [= <-] HL HC. by rewrite HL, HC.
    + by intros ? [= <-].
    + intros ? [= <-] HL HC. by rewrite HL, HC.
  - rewrite Hline, Hcol. split; [|split; [|split; [|split]]]; try done.
Qed.

Lemma formatSassError_position_witness :
  ∃ σ' e',
    formatSassError (Some 1%positive)
      {[ 1%positive := sassError (spanAt (Some 5%Z) (Some 10%Z)) None
                                 (Some "Sass error occurred") ]}
    = (1%positive, σ')
    ∧ σ' !! 1%positive = Some e'
    ∧ line e' = Some 6%Z ∧ column e' = Some 11%Z.
Proof.
  destruct (formatSassError_position 1%positive
              {[ 1%positive := sassError (spanAt (Some 5%Z) (Some 10%Z)) None
                                         (Some "Sass error occurred") ]}
              _ (lookup_singleton_eq _ _))
    as (σ' & e' & Hfmt & He' & Hpos & _).
  exists σ', e'. split; [exact Hfmt|]. split; [exact He'|].
  apply (Hpos {| loc_line := Some 5%Z; loc_column := Some 10%Z |} 5%Z 10%Z);
    reflexivity.
Defined.

(** C6, as stated, fails: the error synthesized for a missing argument is
    returned as it is created, with neither [messageOriginal] nor
    [messageFormatted] set, although it has a [message]. *)
Lemma formatSassError_nullish_unannotated :
  ∃ l σ' e', formatSassError None ∅ = (l, σ')
    ∧ σ' !! l = Some e'
    ∧ message e' = Some "No error message provided"
    ∧ messageOriginal e' = None
    ∧ messageFormatted e' = None
    ∧ messageFormatted e' ≠ message e'.
Proof.
  destruct (formatSassError_nullish ∅) as (l & σ' & Hfmt & _ & Hl & _).
  exists l, σ', (newError "No error message provided").
  repeat split; done.
Qed.

(** C6, amended. Every call returns an error and none throws. Without an
    error value the result is a newly made error whose message is
    'No error message provided', and nothing else is set on it. With an
    error object the result is that object, with [messageOriginal] set from
    [sassMessage] when present and from [message] otherwise, and
    [messageFormatted] set from [message]. *)
Theorem formatSassError_messages error σ :
  (∀ l, error = Some l → is_Some (σ !! l)) →
  ∃ l' σ' e', formatSassError error σ = (l', σ')
    ∧ σ' !! l' = Some e'
    ∧ (error = None →
         (l' ∉ dom σ) ∧ e' = newError "No error message provided")
    ∧ (∀ l e, error = Some l → σ !! l = Some e →
         l' = l
         ∧ messageOriginal e' = nullishOpt (sassMessage e) (message e)
         ∧ (∀ s, sassMessage e = Some s → messageOriginal e' = Some s)
         ∧ (sassMessage e = None → messageOriginal e' = message e)
         ∧ messageFormatted e' = message e
         ∧ message e' = message e).
Proof.
  intros Hwf. destruct error as [l|].
  - destruct (Hwf l eq_refl) as [e He].
    destruct (formatSassError_object l σ e He) as (σ' & Hfmt & Hl & _).
    exists l, σ', (annotate e). split; [done|]. split; [done|].
    split; [done|]. intros ? e0 [= <-] He0. rewrite He in He0.
    injection He0 as <-.
    destruct (annotate_messages e) as [Horig Hfmtd].
    destruct (annotate_reads_kept e) as (_ & _ & Hmsg & _).
    rewrite Horig, Hfmtd, Hmsg. repeat split; try done.
    + by intros s ->.
    + by intros ->.
  - destruct (formatSassError_nullish σ) as (l & σ' & Hfmt & Hfresh & Hl & _).
    exists l, σ', (newError "No error message provided").
    split; [done|]. split; [done|]. split; [done|]. by intros.
Qed.

Lemma formatSassError_messages_witness :
  ∃ σ' e',
    formatSassError (Some 1%positive)
      {[ 1%positive := sassError None (Some "Specific Sass error")
                                 (Some "Generic error message") ]}
    = (1%positive, σ')
    ∧ σ' !! 1%positive = Some e'
    ∧ messageOriginal e' = Some "Specific Sass error"
    ∧ messageFormatted e' = Some "Generic error message".
Proof.
  destruct (formatSassError_messages (Some 1%positive)
              {[ 1%positive := sassError None (Some "Specific Sass error")
                                         (Some "Generic error message") ]})
    as (l' & σ' & e' & Hfmt & He' & _ & Hobj).
  { intros l [= <-]. rewrite lookup_singleton_eq. by eexists. }
  destruct (Hobj 1%positive _ eq_refl (lookup_singleton_eq _ _))
    as (-> & Horig & _ & _ & Hfmtd & _).
  exists σ', e'. split; [exact Hfmt|]. split; [exact He'|].
  split; [exact Horig|exact Hfmtd].
Defined.

(** C10. On an error object the normalizer is idempotent: a second call
    returns the same reference and leaves the store, hence [line],
    [column], [messageOriginal] and [messageFormatted], as the first call
    left them; the fields it reads ([span], [sassMessage], [message]) are
    never written. *)
Theorem formatSassError_idempotent l σ :
  ∃ σ', formatSassError (Some l) σ = (l, σ')
    ∧ formatSassError (Some l) σ' = (l, σ')
    ∧ (∀ e, σ !! l = Some e →
         ∃ e1, σ' !! l = Some e1
           ∧ annotate e1 = e1
           ∧ span e1 = span e
           ∧ sassMessage e1 = sassMessage e
           ∧ message e1 = message e).
Proof.
  exists (alter annotate l σ). split; [done|]. split.
  - simpl. f_equal. rewrite alter_alter_eq. apply alter_ext.
    intros e _. apply annotate_idempotent.
  - intros e He. exists (annotate e).
    split; [by rewrite lookup_alter_eq, He|].
    split; [apply annotate_idempotent|].
    by destruct (annotate_reads_kept e) as (-> & -> & -> & _).
Qed.

Lemma formatSassError_idempotent_witness :
  ∃ σ' e1,
    formatSassError (Some 1%positive)
      {[ 1%positive := sassError (spanAt None None) None (Some "Generic error") ]}
    = (1%positive, σ')
    ∧ formatSassError (Some 1%positive) σ' = (1%positive, σ')
    ∧ σ' !! 1%positive = Some e1
    ∧ message e1 = Some "Generic error".
Proof.
  destruct (formatSassError_idempotent 1%positive
              {[ 1%positive := sassError (spanAt None None) None
                                         (Some "Generic error") ]})
    as (σ' & Hone & Htwo & Hfields).
  destruct (Hfields _ (lookup_singleton_eq _ _)) as (e1 & He1 & _ & _ & _ & Hmsg).
  exists σ', e1. split; [exact Hone|]. split; [exact Htwo|].
  split; [exact He1|exact Hmsg].
Defined.

(** ** The transform stream: results *)

Section Engine.
Context (host : Host) (options : Options).

(** The catch clause touches the store only. *)
Lemma transformCatch_world thrown w :
  compileCalls (snd (transformCatch thrown w)) = compileCalls w
  ∧ disposeCalls (snd (transformCatch thrown w)) = disposeCalls w
  ∧ emitted (snd (transformCatch thrown w)) = emitted w.
Proof.
  unfold transformCatch. destruct (catch thrown (store w)) as [error σ].
  destruct (formatSassError error σ) as [l σ'].
  by destruct (newPluginError (CauseThrown (Some l)) false σ').
Qed.


End Engine.

(** C1, as stated, fails: an asset with zero-length contents whose base name
    starts with ['_'] is dropped by the partial rule, which comes first; its
    path is not rewritten and nothing is forwarded. *)
Lemma transform_empty_partial_dropped :
  contentsLength emptyPartial = Some 0%nat
  ∧ transform testHost noOptions (Some (AsyncCompiler 1)) emptyPartial emptyWorld
    = (CbDone, emptyWorld)
  ∧ (∀ file', transform testHost noOptions (Some (AsyncCompiler 1))
                emptyPartial emptyWorld ≠ (CbPush file', emptyWorld))
  ∧ output (gulpSassEmbedded testHost noOptions [emptyPartial] emptyWorld) = [].
Proof. repeat split; try reflexivity. intros file'. discriminate. Qed.

(** C1, amended. For every asset with zero-length contents whose base name
    does not start with ['_'], the path extension is rewritten to ['.css'],
    the compiler is not invoked, and the asset is forwarded downstream
    otherwise unchanged. *)
Theorem transform_empty_contents host options compiler file w rest :
  contentsLength file = Some 0%nat →
  String.prefix "_" (basename file) = false →
  let file' := setPath (replaceExtension host (path file) ".css") file in
  transform host options compiler file w = (CbPush file', w)
  ∧ compileCalls (snd (transform host options compiler file w)) = compileCalls w
  ∧ output (writeAll host options compiler (file :: rest) w)
    = file' :: output (writeAll host options compiler rest w).
Proof.
  intros Hlen Hname file'.
  assert (transform host options compiler file w = (CbPush file', w)) as Ht.
  { unfold transform, isNull, isStream. unfold contentsLength in Hlen.
    destruct (contents file) eqn:Hc; try done.
    rewrite Hname. unfold contentsLength. rewrite Hc.
    by rewrite bool_decide_true. }
  split; [done|]. split; [by rewrite Ht|]. simpl. by rewrite Ht.
Qed.

Lemma transform_empty_contents_witness :
  transform testHost noOptions (Some (AsyncCompiler 1)) emptyScss emptyWorld
  = (CbPush (setPath "/scss/empty.css" emptyScss), emptyWorld).
Proof.
  apply (transform_empty_contents testHost noOptions (Some (AsyncCompiler 1))
           emptyScss emptyWorld []); reflexivity.
Defined.

(** C2. A buffered asset (neither null nor a stream) whose base name starts
    with ['_'] is dropped without an error, whatever its contents: the
    callback gets neither a file nor an error, and the stream goes on with
    the assets that follow. *)
Theorem transform_partial host options compiler file w rest :
  isNull file = false →
  isStream file = false →
  String.prefix "_" (basename file) = true →
  transform host options compiler file w = (CbDone, w)
  ∧ writeAll host options compiler (file :: rest) w
    = writeAll host options compiler rest w.
Proof.
  intros Hnull Hstream Hname.
  assert (transform host options compiler file w = (CbDone, w)) as Ht
    by (unfold transform; by rewrite Hnull, Hstream, Hname).
  split; [done|]. simpl. by rewrite Ht.
Qed.

Lemma transform_partial_witness :
  transform testHost noOptions (Some (AsyncCompiler 1)) partialScss emptyWorld
  = (CbDone, emptyWorld)
  ∧ writeAll testHost noOptions (Some (AsyncCompiler 1))
      [partialScss; emptyScss] emptyWorld
    = writeAll testHost noOptions (Some (AsyncCompiler 1)) [emptyScss] emptyWorld.
Proof.
  apply (transform_partial testHost noOptions (Some (AsyncCompiler 1))
           partialScss emptyWorld [emptyScss]); reflexivity.
Defined.

(** C3. An asset whose contents are a live stream makes [transform] fail at
    once with the plugin error 'Streams are not supported!'; no compile call
    is made for it, and the run stops there: no later asset is processed. *)
Theorem transform_stream host options compiler file w rest :
  isStream file = true →
  transform host options compiler file w = (CbError streamsNotSupported, w)
  ∧ compileCalls (snd (transform host options compiler file w)) = compileCalls w
  ∧ writeAll host options compiler (file :: rest) w
    = {| output := []; failure := Some streamsNotSupported; world := w |}.
Proof.
  intros Hstream.
  assert (transform host options compiler file w
          = (CbError streamsNotSupported, w)) as Ht.
  { unfold transform, isNull. unfold isStream in Hstream.
    destruct (contents file) eqn:Hc; try done.
    unfold isStream. by rewrite Hc. }
  split; [done|]. split; [by rewrite Ht|]. simpl. by rewrite Ht.
Qed.

Lemma transform_stream_witness :
  writeAll testHost noOptions (Some (AsyncCompiler 1))
    [streamFile; styleScss] emptyWorld
  = {| output := []; failure := Some streamsNotSupported; world := emptyWorld |}.
Proof.
  apply (transform_stream testHost noOptions (Some (AsyncCompiler 1))
           streamFile emptyWorld [styleScss]).
  reflexivity.
Defined.

(** The constructor of a plugin error, on a caught error object. *)
Lemma hasMessageb_spec e : hasMessageb e = true ↔ hasMessage e.
Proof.
  unfold hasMessageb, hasMessage. destruct (message e) as [msg|].
  - destruct (String.eqb_spec msg "") as [->|Hne]; simpl.
    + split; [done|]. by intros (? & [= <-] & ?).
    + split; [by eauto|done].
  - split; [done|]. by intros (? & ? & _).
Qed.

Lemma newPluginError_object l σ e showProperties :
  σ !! l = Some e →
  newPluginError (CauseThrown (Some l)) showProperties σ
  = if hasMessageb e
    then Some {| pe_plugin := PLUGIN_NAME; pe_cause := CauseThrown (Some l);
                 pe_showProperties := showProperties |}
    else None.
Proof.
  intros Hl. unfold newPluginError, hasMessageb. simpl. rewrite Hl.
  destruct (message e) as [msg|]; [|done]. by destruct (String.eqb msg "").
Qed.

Lemma catch_object t σ :
  catch (Some t) σ = (Some (caughtAt t σ), storeWith t σ).
Proof. by destruct t. Qed.

Lemma storeWith_lookup t σ e :
  thrownObject t σ = Some e → storeWith t σ !! caughtAt t σ = Some e.
Proof.
  destruct t as [e'|l]; simpl; [|done].
  intros [= <-]. apply lookup_insert_eq.
Qed.




(** * Further properties of the code *)

(** ** createCompileArguments *)

Lemma firstSeen_NoDup_id l : ∀ seen,
  NoDup l → (∀ x, x ∈ l → x ∉ seen) → firstSeen seen l = l.
Proof.
  induction l as [|x l IH]; intros seen Hnd Hdisj; simpl; [done|].
  apply NoDup_cons in Hnd as [Hx Hnd].
  rewrite decide_False by (apply Hdisj; rewrite elem_of_cons; tauto).
  f_equal. apply IH; [done|]. intros y Hy. rewrite elem_of_cons.
  intros [->|Hseen]; [done|].
  by apply (Hdisj y); [rewrite elem_of_cons; tauto|].
Qed.

Lemma filter_usable_all (l : list JsVal) :
  Forall usablePath l → filter (λ p, isLoadPath p = true) l = l.
Proof.
  induction 1 as [|p l Hp _ IH]; [done|].
  rewrite filter_cons, decide_True by (by apply isLoadPath_spec).
  by rewrite IH.
Qed.

Lemma createCompileArguments_buffer host f options b :
  contents f = CBuffer b →
  ∃ co, createCompileArguments host (Some f) options
        = Normal (bufferToString host b, co)
    ∧ co_loadPaths co
      = searchPathsSpec (orDefault (dirname f) (VStr ""))
                        (nullish (opt_loadPaths options) []).
Proof.
  intros Hc.
  pose proof (createCompileArguments_returns host (Some f) options) as H.
  destruct (createCompileArguments host (Some f) options) as [[text co]|e].
  - destruct H as (Htext & _ & _ & Hpaths). simpl in Htext.
    rewrite Hc in Htext. injection Htext as <-. by exists co.
  - destruct H as (f' & [= <-] & Hnull). congruence.
Qed.

(** The asset's own directory, when it is a non-empty string, is the first
    search path and occurs once; the caller's paths follow it. *)
Theorem loadPaths_directory_first host f options b D :
  contents f = CBuffer b →
  dirname f = VStr D →
  D ≠ "" →
  ∃ text co rest,
    createCompileArguments host (Some f) options = Normal (text, co)
    ∧ co_loadPaths co = VStr D :: rest
    ∧ (VStr D ∉ rest)
    ∧ (∀ p, p ∈ rest ↔
            usablePath p ∧ p ≠ VStr D
            ∧ p ∈ nullish (opt_loadPaths options) []).
Proof.
  intros Hc Hd HD.
  destruct (createCompileArguments_buffer host f options b Hc)
    as (co & Hco & Hpaths).
  rewrite Hd in Hpaths. simpl in Hpaths. unfold searchPathsSpec in Hpaths.
  rewrite filter_cons, decide_True in Hpaths
    by (apply isLoadPath_spec; by exists D).
  rewrite dedupFirstSeen_cons in Hpaths.
  eexists _, co, _. split; [exact Hco|]. split; [exact Hpaths|].
  assert (∀ p, p ∈ dedupFirstSeen
                     (filter (λ y, y ≠ VStr D)
                        (filter (λ p, isLoadPath p = true)
                           (nullish (opt_loadPaths options) [])))
               ↔ usablePath p ∧ p ≠ VStr D
                 ∧ p ∈ nullish (opt_loadPaths options) []) as Hrest.
  { intros p. rewrite dedupFirstSeen_elem, !list_elem_of_filter,
      isLoadPath_spec. tauto. }
  split; [|exact Hrest]. rewrite Hrest. tauto.
Qed.

Lemma loadPaths_directory_first_witness :
  ∃ text co rest,
    createCompileArguments testHost (Some styleScss)
      (withLoadPaths [VStr "/custom/path"; VStr "/scss"])
    = Normal (text, co)
    ∧ co_loadPaths co = VStr "/scss" :: rest
    ∧ (VStr "/scss" ∉ rest).
Proof.
  destruct (loadPaths_directory_first testHost styleScss
              (withLoadPaths [VStr "/custom/path"; VStr "/scss"])
              (list_byte_of_string "body { color: red; }") "/scss")
    as (text & co & rest & Hco & Hpaths & Hout & _);
    [reflexivity|reflexivity|discriminate|].
  exists text, co, rest. split; [exact Hco|]. split; [exact Hpaths|exact Hout].
Defined.

(** When the directory and the caller's paths are non-empty strings, all
    distinct, the search-path list is the directory followed by the caller's
    paths: nothing is dropped and nothing is reordered. *)
Theorem loadPaths_distinct_unchanged host f options b :
  contents f = CBuffer b →
  let entries := dirname f :: nullish (opt_loadPaths options) [] in
  Forall usablePath entries →
  NoDup entries →
  ∃ text co,
    createCompileArguments host (Some f) options = Normal (text, co)
    ∧ co_loadPaths co = entries.
Proof.
  intros Hc entries Husable Hnd.
  destruct (createCompileArguments_buffer host f options b Hc)
    as (co & Hco & Hpaths).
  exists (bufferToString host b), co. split; [done|].
  assert (orDefault (dirname f) (VStr "") = dirname f) as Hdir.
  { apply Forall_cons in Husable as [(s & -> & _) _]. done. }
  rewrite Hdir in Hpaths. rewrite Hpaths. unfold searchPathsSpec.
  fold entries. rewrite filter_usable_all by done.
  apply firstSeen_NoDup_id; [done|]. intros x _. apply not_elem_of_nil.
Qed.

Lemma loadPaths_distinct_unchanged_witness :
  ∃ text co,
    createCompileArguments testHost (Some styleScss)
      (withLoadPaths [VStr "/b"; VStr "/a"])
    = Normal (text, co)
    ∧ co_loadPaths co = [VStr "/scss"; VStr "/b"; VStr "/a"].
Proof.
  apply (loadPaths_distinct_unchanged testHost styleScss
           (withLoadPaths [VStr "/b"; VStr "/a"])
           (list_byte_of_string "body { color: red; }")).
  - reflexivity.
  - repeat constructor; eexists; (split; [reflexivity|discriminate]).
  - apply (bool_decide_unpack _). vm_compute. reflexivity.
Defined.

(** ** formatSassError *)



(** ** The transform stream *)

Section EngineMore.
Context (host : Host) (options : Options).

Lemma needsCompile_inv file :
  needsCompile file = true →
  isNull file = false ∧ isStream file = false
  ∧ String.prefix "_" (basename file) = false
  ∧ bool_decide (contentsLength file = Some 0%nat) = false
  ∧ ∃ b, contents file = CBuffer b.
Proof.
  unfold needsCompile, isNull, isStream.
  destruct (contents file) as [| |b]; simpl; try done.
  destruct (String.prefix "_" (basename file)); simpl; [done|].
  destruct (bool_decide _); simpl; [done|]. eauto 10.
Qed.

(** What the catch clause of [transform] does with a nullish value: the
    error it reports is the one [formatSassError] makes up. *)
Lemma transformCatch_nullish w :
  let l := fresh (dom (store w)) in
  transformCatch None w
  = (CbError {| pe_plugin := PLUGIN_NAME; pe_cause := CauseThrown (Some l);
                pe_showProperties := false |},
     setStore (<[l := newError "No error message provided"]> (store w)) w).
Proof.
  unfold transformCatch. simpl.
  by rewrite (newPluginError_object _ _ (newError "No error message provided"))
    by apply lookup_insert_eq.
Qed.

(** What it does with an error object: the object is normalized where it
    is, and reported if a plugin error can be made from it. *)
Lemma transformCatch_object t w e :
  thrownObject t (store w) = Some e →
  let l := caughtAt t (store w) in
  transformCatch (Some t) w
  = (if hasMessageb e
     then CbError {| pe_plugin := PLUGIN_NAME;
                     pe_cause := CauseThrown (Some l);
                     pe_showProperties := false |}
     else CbNever,
     setStore (<[l := annotate e]> (store w)) w).
Proof.
  intros He l. unfold transformCatch. rewrite catch_object. simpl.
  assert (alter annotate (caughtAt t (store w)) (storeWith t (store w))
          = <[l := annotate e]> (store w)) as ->.
  { destruct t as [e'|l']; simpl in *.
    - injection He as ->. apply alter_insert_eq.
    - by apply alter_alt_Some. }
  rewrite (newPluginError_object _ _ (annotate e)) by apply lookup_insert_eq.
  assert (hasMessageb (annotate e) = hasMessageb e) as ->.
  { unfold hasMessageb.
    by destruct (annotate_reads_kept e) as (_ & _ & -> & _). }
  by destruct (hasMessageb e).
Qed.

(** Whatever was thrown, the catch clause forwards no file and does not
    report success. *)
Lemma transformCatch_outcome thrown w :
  (∃ e, fst (transformCatch thrown w) = CbError e)
  ∨ fst (transformCatch thrown w) = CbNever.
Proof.
  unfold transformCatch. destruct (catch thrown (store w)) as [error σ].
  destruct (formatSassError error σ) as [l σ'].
  destruct (newPluginError (CauseThrown (Some l)) false σ'); eauto.
Qed.

(** An asset that does not reach the compiler leaves the world alone. *)
Lemma transform_skips compiler file w :
  needsCompile file = false →
  snd (transform host options compiler file w) = w
  ∧ (isStream file = false → emits file = true →
     ∃ file', fst (transform host options compiler file w) = CbPush file')
  ∧ (isStream file = false → emits file = false →
     fst (transform host options compiler file w) = CbDone).
Proof.
  unfold needsCompile, emits, transform.
  destruct (isNull file); simpl;
    [intros _; split; [done|]; split; [by eauto|done]|].
  destruct (isStream file); simpl; [done|].
  destruct (String.prefix "_" (basename file)); simpl; [done|].
  destruct (bool_decide _); simpl; [|done].
  intros _; split; [done|]; split; [by eauto|done].
Qed.

(** An asset that reaches the compiler: the arguments are built, the entry
    point of the mode is called once, and its completion decides. *)
Lemma transform_compiles h file w :
  needsCompile file = true →
  ∃ text co,
    createCompileArguments host (Some file) options = Normal (text, co)
    ∧ transform host options (Some h) file w
      = match entryPoint host options h text co with
        | Normal r =>
            (CbPush
               (mergeSourceMap host (res_sourceMap r)
                  (stampStat host
                     (setPath (replaceExtension host (path file) ".css")
                        (setContents (CBuffer (bufferFrom host (css r)))
                                     file)))),
             logCompile (h, text, co) w)
        | Throw thrown => transformCatch thrown (logCompile (h, text, co) w)
        end.
Proof.
  intros Hn. destruct (needsCompile_inv file Hn)
    as (Hnull & Hstream & Hname & Hlen & b & Hb).
  destruct (createCompileArguments_buffer host file options b Hb)
    as (co & Hco & _).
  exists (bufferToString host b), co. split; [done|].
  unfold transform. rewrite Hnull, Hstream, Hname, Hlen, Hco.
  unfold compile, entryPoint. simpl.
  by destruct (opt_sync options);
    match goal with |- context [match ?c with _ => _ end] => destruct c end.
Qed.
End EngineMore.

Section Outcomes.
Context (host : Host) (options : Options).

(** A compile call that returns: the asset is forwarded with the compiled
    bytes as contents and the ['.css'] path; its three timestamps are set to
    the current instant when it carries stat metadata, and none is invented
    when it does not. A returned source map gets the new path as its [file]
    unless it names one, and is handed to the applier together with the
    asset as rewritten so far; without a map the applier is not involved. *)
Theorem transform_compiled h file w text co r :
  needsCompile file = true →
  createCompileArguments host (Some file) options = Normal (text, co) →
  entryPoint host options h text co = Normal r →
  ∃ rewritten,
    path rewritten = replaceExtension host (path file) ".css"
    ∧ contents rewritten = CBuffer (bufferFrom host (css r))
    ∧ sourceMap rewritten = sourceMap file
    ∧ (stat file = None → stat rewritten = None)
    ∧ (∀ s, stat file = Some s →
         stat rewritten = Some {| atime := Some (now host);
                                  mtime := Some (now host);
                                  ctime := Some (now host) |})
    ∧ (res_sourceMap r = None →
         transform host options (Some h) file w
         = (CbPush rewritten, logCompile (h, text, co) w))
    ∧ (∀ m, res_sourceMap r = Some m →
         transform host options (Some h) file w
         = (CbPush
              (applySourceMap host rewritten
                 {| sm_file :=
                      Some (nullish (sm_file m)
                              (replaceExtension host (path file) ".css"));
                    sm_sources := sm_sources m;
                    sm_mappings := sm_mappings m |}),
            logCompile (h, text, co) w)).
Proof.
  intros Hn Hco Hentry.
  destruct (transform_compiles host options h file w Hn)
    as (text' & co' & Hco' & Ht).
  rewrite Hco in Hco'. injection Hco' as <- <-. rewrite Hentry in Ht.
  exists (stampStat host
            (setPath (replaceExtension host (path file) ".css")
               (setContents (CBuffer (bufferFrom host (css r))) file))).
  split; [|split; [|split; [|split; [|split; [|split]]]]].
  - unfold stampStat. simpl. by destruct (stat file).
  - unfold stampStat. simpl. by destruct (stat file).
  - unfold stampStat. simpl. by destruct (stat file).
  - intros Hs. unfold stampStat. simpl. by rewrite Hs.
  - intros s Hs. unfold stampStat. simpl. by rewrite Hs.
  - intros Hmap. by rewrite Ht, Hmap.
  - intros m Hmap. rewrite Ht, Hmap. simpl. do 3 f_equal.
    unfold stampStat. simpl. by destruct (stat file).
Qed.

(** A compile call that throws a value a plugin error can be made from (an
    error object whose message is not empty, or a nullish value, for which
    [formatSassError] makes up an error): no file is forwarded. The callback
    gets a plugin error with property dumping switched off whose cause is
    the thrown object itself, normalized where it is: an object that existed
    before is changed in place and no object is added, a new one enters the
    store. The compile call is on record and the assets that follow are
    never processed. *)
Theorem transform_rejected h file w text co thrown rest l obj :
  needsCompile file = true →
  createCompileArguments host (Some file) options = Normal (text, co) →
  entryPoint host options h text co = Throw thrown →
  (thrown = None ∧ l = fresh (dom (store w))
   ∧ obj = newError "No error message provided")
  ∨ (∃ t e, thrown = Some t ∧ thrownObject t (store w) = Some e
            ∧ hasMessage e ∧ l = caughtAt t (store w) ∧ obj = annotate e) →
  let reported := {| pe_plugin := PLUGIN_NAME;
                     pe_cause := CauseThrown (Some l);
                     pe_showProperties := false |} in
  let w' := setStore (<[l := obj]> (store w)) (logCompile (h, text, co) w) in
  transform host options (Some h) file w = (CbError reported, w')
  ∧ writeAll host options (Some h) (file :: rest) w
    = {| output := []; failure := Some (Reported reported); world := w' |}
  ∧ (∀ l0, thrown = Some (Existing l0) →
       l = l0 ∧ dom (store w') = dom (store w)).
Proof.
  intros Hn Hco Hentry Hthrown reported w'.
  destruct (transform_compiles host options h file w Hn)
    as (text' & co' & Hco' & Ht).
  rewrite Hco in Hco'. injection Hco' as <- <-. rewrite Hentry in Ht.
  assert (transform host options (Some h) file w = (CbError reported, w'))
    as Hres.
  { rewrite Ht. destruct Hthrown as [(-> & -> & ->)|(t & e & -> & He & Hm & -> & ->)].
    - apply (transformCatch_nullish (logCompile (h, text, co) w)).
    - rewrite (transformCatch_object t (logCompile (h, text, co) w) e) by done.
      by rewrite (proj2 (hasMessageb_spec e) Hm). }
  split; [exact Hres|]. split; [simpl; by rewrite Hres|].
  intros l0 ->.
  destruct Hthrown as [(? & _)|(t & e & [= <-] & He & _ & -> & _)]; [done|].
  split; [done|]. subst w'. simpl in *.
  apply set_eq. intros k. rewrite dom_insert_L, elem_of_union, elem_of_singleton.
  split; [|tauto]. intros [->|?]; [|done]. apply elem_of_dom. by eexists.
Qed.

(** A compile call that throws an error object with no message, or an empty
    one: building the plugin error throws inside the catch clause, so the
    callback of [transform] is never invoked. No error is reported and no
    file forwarded; the assets that follow are never processed, teardown
    never starts, and the compiler is not disposed. *)
Theorem transform_messageless_stalls h file w text co t e rest :
  needsCompile file = true →
  createCompileArguments host (Some file) options = Normal (text, co) →
  entryPoint host options h text co = Throw (Some t) →
  thrownObject t (store w) = Some e →
  ¬ hasMessage e →
  let w' := setStore (<[caughtAt t (store w) := annotate e]> (store w))
                     (logCompile (h, text, co) w) in
  transform host options (Some h) file w = (CbNever, w')
  ∧ writeAll host options (Some h) (file :: rest) w
    = {| output := []; failure := Some Stalled; world := w' |}
  ∧ (factory host options = Normal h →
     gulpSassEmbedded host options (file :: rest) w
     = {| output := []; failure := Some Stalled; world := w' |})
  ∧ disposeCalls w' = disposeCalls w
  ∧ emitted w' = emitted w.
Proof.
  intros Hn Hco Hentry He Hm w'.
  destruct (transform_compiles host options h file w Hn)
    as (text' & co' & Hco' & Ht).
  rewrite Hco in Hco'. injection Hco' as <- <-. rewrite Hentry in Ht.
  rewrite (transformCatch_object t (logCompile (h, text, co) w) e) in Ht
    by done.
  assert (hasMessageb e = false) as Hb.
  { destruct (hasMessageb e) eqn:Hb; [|done].
    by apply hasMessageb_spec in Hb. }
  rewrite Hb in Ht.
  assert (writeAll host options (Some h) (file :: rest) w
          = {| output := []; failure := Some Stalled; world := w' |}) as Hrun
    by (simpl; by rewrite Ht).
  split; [exact Ht|]. split; [exact Hrun|]. split; [|done].
  unfold factory. intros Hf. unfold gulpSassEmbedded, open.
  by rewrite Hf, Hrun.
Qed.

(** The compiler sees the assets that need compiling, once each and in
    arrival order, with the handle [open] created: the compile calls of a
    run are those of a leading part of the asset list, and of all of it when
    the run does not fail. Null assets, partials and empty assets never
    cause a call. *)
Theorem writeAll_compile_calls h files : ∀ w,
  ∃ calls,
    compileCalls (world (writeAll host options (Some h) files w))
    = compileCalls w ++ calls
    ∧ calls `prefix_of` omap (compileCallFor host options h) files
    ∧ (failure (writeAll host options (Some h) files w) = None →
       calls = omap (compileCallFor host options h) files).
Proof.
  induction files as [|file rest IH]; intros w; simpl.
  - exists []. by rewrite app_nil_r.
  - destruct (needsCompile file) eqn:Hn.
    + destruct (transform_compiles host options h file w Hn)
        as (text & co & Hco & Ht).
      assert (compileCallFor host options h file = Some (h, text, co)) as ->
        by (unfold compileCallFor; by rewrite Hn, Hco).
      rewrite Ht.
      destruct (entryPoint host options h text co) as [r|thrown].
      * destruct (IH (logCompile (h, text, co) w)) as (calls & Hc & Hp & Hall).
        exists ((h, text, co) :: calls). simpl. rewrite Hc. simpl.
        split; [by rewrite <- app_assoc|].
        split; [by apply prefix_cons|]. intros Hok. f_equal. by apply Hall.
      * destruct (transformCatch_world thrown (logCompile (h, text, co) w))
          as (Hc & _).
        pose proof (transformCatch_outcome thrown (logCompile (h, text, co) w))
          as Hout.
        destruct (transformCatch thrown (logCompile (h, text, co) w))
          as [cb w1]. simpl in Hc, Hout.
        exists [(h, text, co)].
        destruct Hout as [[e ->]| ->]; simpl; rewrite Hc;
          (split; [done|]; split; [apply prefix_cons, prefix_nil|done]).
    + assert (compileCallFor host options h file = None) as ->
        by (unfold compileCallFor; by rewrite Hn).
      pose proof (transform_skips host options (Some h) file w Hn) as [Hw _].
      destruct (transform host options (Some h) file w) as [[|file'|e|] w1];
        simpl in Hw; subst w1; simpl.
      * apply IH.
      * apply IH.
      * exists []. rewrite app_nil_r. split; [done|].
        split; [apply prefix_nil|done].
      * exists []. rewrite app_nil_r. split; [done|].
        split; [apply prefix_nil|done].
Qed.

(** The output of a run keeps the arrival order and has one file for every
    asset that is not a buffered partial: each output file is what
    [transform] forwarded for the asset at the same position among those
    assets. A failed run outputs a leading part of them. *)
Theorem writeAll_output_order compiler files : ∀ w,
  ∃ kept,
    kept `prefix_of` filter (λ f, emits f = true) files
    ∧ Forall2 (λ asset out,
                 ∃ w0 w1, transform host options compiler asset w0
                          = (CbPush out, w1))
              kept
              (output (writeAll host options compiler files w))
    ∧ (failure (writeAll host options compiler files w) = None →
       kept = filter (λ f, emits f = true) files).
Proof.
  induction files as [|file rest IH]; intros w; simpl.
  - exists []. split; [done|]. split; [constructor|done].
  - rewrite filter_cons.
    assert (∀ file' w1, transform host options compiler file w
                        = (CbPush file', w1) → emits file = true) as Hpush.
    { intros file' w1. unfold transform, emits.
      destruct (isNull file); [done|]. destruct (isStream file); [done|].
      by destruct (String.prefix "_" (basename file)). }
    assert (∀ w1, transform host options compiler file w = (CbDone, w1) →
                  emits file = false) as Hdone.
    { assert (∀ thrown w0 w1, transformCatch thrown w0 ≠ (CbDone, w1))
        as Hcatch.
      { intros thrown w0 w1 Heq.
        destruct (transformCatch_outcome thrown w0) as [[e He]|He];
          rewrite Heq in He; done. }
      intros w1. unfold transform, emits.
      destruct (isNull file); [done|]. destruct (isStream file); [done|].
      destruct (String.prefix "_" (basename file)); [done|].
      case_bool_decide; [done|].
      destruct (createCompileArguments host (Some file) options)
        as [args|thrown]; [|by intros ?%Hcatch].
      destruct (compile host options compiler args w) as [[r|thrown] w2];
        [done|by intros ?%Hcatch]. }
    destruct (transform host options compiler file w) as [[|file'|e|] w1]
      eqn:Ht.
    + rewrite (Hdone w1 eq_refl), decide_False by done. apply IH.
    + rewrite (Hpush file' w1 eq_refl), decide_True by done.
      destruct (IH w1) as (kept & Hp & Hf & Hall).
      exists (file :: kept). simpl. split; [by apply prefix_cons|].
      split; [constructor; [by exists w, w1|done]|].
      intros Hok. f_equal. by apply Hall.
    + exists []. split; [apply prefix_nil|]. split; [constructor|done].
    + exists []. split; [apply prefix_nil|]. split; [constructor|done].
Qed.
End Outcomes.

Lemma transform_compiled_witness :
  ∃ rewritten,
    path rewritten = "/scss/style.css"
    ∧ stat rewritten = Some {| atime := Some (now mappingHost);
                              mtime := Some (now mappingHost);
                              ctime := Some (now mappingHost) |}
    ∧ transform mappingHost noOptions (Some (AsyncCompiler 1))
        (statted styleScss) emptyWorld
      = (CbPush
           (applySourceMap mappingHost rewritten
              {| sm_file := Some "/scss/style.css";
                 sm_sources := sm_sources bareMap;
                 sm_mappings := sm_mappings bareMap |}),
         logCompile
           (AsyncCompiler 1, "body { color: red; }",
            {| co_spread := noOptions;
               co_url := {| href := "file:///scss/style.scss" |};
               co_sourceMap := false; co_sourceMapIncludeSources := false;
               co_syntax := "scss"; co_loadPaths := [VStr "/scss"] |})
           emptyWorld).
Proof.
  destruct (transform_compiled mappingHost noOptions (AsyncCompiler 1)
              (statted styleScss) emptyWorld
              "body { color: red; }"
              {| co_spread := noOptions;
                 co_url := {| href := "file:///scss/style.scss" |};
                 co_sourceMap := false; co_sourceMapIncludeSources := false;
                 co_syntax := "scss"; co_loadPaths := [VStr "/scss"] |}
              {| css := "body { color: red; }";
                 res_sourceMap := Some bareMap |})
    as (rewritten & Hpath & _ & _ & _ & Hstat & _ & Hmap);
    [reflexivity|reflexivity|reflexivity|].
  exists rewritten. split; [exact Hpath|].
  split; [exact (Hstat _ eq_refl)|]. exact (Hmap bareMap eq_refl).
Defined.

Lemma transform_rejected_witness :
  transform rethrowingHost noOptions (Some (AsyncCompiler 1)) invalidScss
    worldWithError
  = (CbError {| pe_plugin := PLUGIN_NAME;
                pe_cause := CauseThrown (Some 1%positive);
                pe_showProperties := false |},
     setStore (<[1%positive := annotate expectedExpression]>
                 (store worldWithError))
       (logCompile
          (AsyncCompiler 1, "body { font: ; }",
           {| co_spread := noOptions;
              co_url := {| href := "file:///scss/invalid.scss" |};
              co_sourceMap := false; co_sourceMapIncludeSources := false;
              co_syntax := "scss"; co_loadPaths := [VStr "/scss"] |})
          worldWithError))
  ∧ line (annotate expectedExpression) = Some 1%Z
  ∧ column (annotate expectedExpression) = Some 14%Z.
Proof.
  split; [|split; reflexivity].
  destruct (transform_rejected rethrowingHost noOptions (AsyncCompiler 1)
              invalidScss worldWithError "body { font: ; }"
              {| co_spread := noOptions;
                 co_url := {| href := "file:///scss/invalid.scss" |};
                 co_sourceMap := false; co_sourceMapIncludeSources := false;
                 co_syntax := "scss"; co_loadPaths := [VStr "/scss"] |}
              (Some (Existing 1%positive)) [styleScss] 1%positive
              (annotate expectedExpression))
    as (Ht & _); [reflexivity|reflexivity|reflexivity| |].
  - right. exists (Existing 1%positive), expectedExpression.
    split; [reflexivity|]. split; [reflexivity|].
    split; [|split; reflexivity].
    exists "Expected expression. (formatted)". split; [reflexivity|discriminate].
  - exact Ht.
Defined.

Lemma transform_messageless_stalls_witness :
  ∃ w', gulpSassEmbedded mutedHost noOptions [invalidScss; styleScss] emptyWorld
        = {| output := []; failure := Some Stalled; world := w' |}
    ∧ disposeCalls w' = [].
Proof.
  destruct (transform_messageless_stalls mutedHost noOptions (AsyncCompiler 1)
              invalidScss emptyWorld "body { font: ; }"
              {| co_spread := noOptions;
                 co_url := {| href := "file:///scss/invalid.scss" |};
                 co_sourceMap := false; co_sourceMapIncludeSources := false;
                 co_syntax := "scss"; co_loadPaths := [VStr "/scss"] |}
              (Fresh (newError "")) (newError "") [styleScss])
    as (_ & _ & Hrun & Hd & _);
    [reflexivity|reflexivity|reflexivity|reflexivity| |].
  - intros (msg & Hmsg & Hne). injection Hmsg as <-. by apply Hne.
  - eexists. split; [apply Hrun; reflexivity|exact Hd].
Defined.

Lemma writeAll_compile_calls_witness :
  compileCalls (world (writeAll testHost noOptions (Some (AsyncCompiler 1))
                         [nullFile; partialScss; emptyScss; styleScss]
                         emptyWorld))
  = [(AsyncCompiler 1, "body { color: red; }",
      {| co_spread := noOptions;
         co_url := {| href := "file:///scss/style.scss" |};
         co_sourceMap := false; co_sourceMapIncludeSources := false;
         co_syntax := "scss"; co_loadPaths := [VStr "/scss"] |})].
Proof.
  destruct (writeAll_compile_calls testHost noOptions (AsyncCompiler 1)
              [nullFile; partialScss; emptyScss; styleScss] emptyWorld)
    as (calls & Hcalls & _ & Hall).
  rewrite Hcalls, (Hall eq_refl). reflexivity.
Defined.

Lemma writeAll_output_order_witness :
  ∃ kept,
    kept = [nullFile; emptyScss; styleScss]
    ∧ Forall2 (λ asset out,
                 ∃ w0 w1, transform testHost noOptions (Some (AsyncCompiler 1))
                            asset w0 = (CbPush out, w1))
              kept
              (output (writeAll testHost noOptions (Some (AsyncCompiler 1))
                         [nullFile; partialScss; emptyScss; styleScss]
                         emptyWorld)).
Proof.
  destruct (writeAll_output_order testHost noOptions (Some (AsyncCompiler 1))
              [nullFile; partialScss; emptyScss; styleScss] emptyWorld)
    as (kept & _ & Hout & Hall).
  exists kept. split; [exact (Hall eq_refl)|exact Hout].
Defined.

Section Lifecycle.
Context (host : Host) (options : Options).

(** When the factory of the configured mode throws an error object whose
    message is not empty, the run fails before any asset is looked at:
    nothing is output, compiled, disposed or emitted, whatever assets were
    written, and the plugin error wraps the thrown object as it was thrown
    (it is not normalized) and leaves property dumping on. When the factory
    throws a nullish value or an error object without a message, building
    the plugin error throws, the callback of [open] is never invoked, and
    the run stalls without reporting anything. *)
Theorem open_failure_run files w thrown :
  factory host options = Throw thrown →
  (∀ t e, thrown = Some t → thrownObject t (store w) = Some e →
     hasMessage e →
     gulpSassEmbedded host options files w
     = {| output := [];
          failure :=
            Some (Reported
                    {| pe_plugin := PLUGIN_NAME;
                       pe_cause := CauseThrown (Some (caughtAt t (store w)));
                       pe_showProperties := true |});
          world := setStore (storeWith t (store w)) w |})
  ∧ (thrown = None
     ∨ (∃ t e, thrown = Some t ∧ thrownObject t (store w) = Some e
               ∧ ¬ hasMessage e) →
     ∃ w', gulpSassEmbedded host options files w
           = {| output := []; failure := Some Stalled; world := w' |}
       ∧ compileCalls w' = compileCalls w
       ∧ disposeCalls w' = disposeCalls w
       ∧ emitted w' = emitted w).
Proof.
  unfold factory. intros Hf. unfold gulpSassEmbedded, open. rewrite Hf.
  split.
  - intros t e -> He Hm. rewrite catch_object.
    rewrite (newPluginError_object _ _ e) by (by apply storeWith_lookup).
    by rewrite (proj2 (hasMessageb_spec e) Hm).
  - intros [->|(t & e & -> & He & Hm)].
    + simpl. by eexists.
    + rewrite catch_object.
      rewrite (newPluginError_object _ _ e) by (by apply storeWith_lookup).
      destruct (hasMessageb e) eqn:Hb; [by apply hasMessageb_spec in Hb|].
      by eexists.
Qed.

(** The introspection query answers [false] before [open] and after an
    [open] that failed, and [true] after an [open] whose factory returned a
    compiler of the class that goes with the mode. *)
Theorem isCompilerInitialized_after_open w :
  isCompilerInitialized options None = false
  ∧ (∀ thrown, factory host options = Throw thrown →
       isCompilerInitialized options (open host options w).1.2 = false)
  ∧ (∀ id, opt_sync options = true →
       initCompiler host = Normal (SyncCompiler id) →
       isCompilerInitialized options (open host options w).1.2 = true)
  ∧ (∀ id, opt_sync options = false →
       initAsyncCompiler host = Normal (AsyncCompiler id) →
       isCompilerInitialized options (open host options w).1.2 = true).
Proof.
  unfold factory, open, isCompilerInitialized. split; [done|].
  split; [|split].
  - intros thrown ->. destruct (catch thrown (store w)) as [error σ].
    by destruct (newPluginError (CauseThrown error) true σ).
  - intros id Hs Hinit. rewrite Hs in *. by rewrite Hinit.
  - intros id Hs Hinit. rewrite Hs in *. by rewrite Hinit.
Qed.

End Lifecycle.

Lemma open_failure_run_witness :
  gulpSassEmbedded failingInitHost noOptions [styleScss] emptyWorld
  = {| output := [];
       failure :=
         Some (Reported
                 {| pe_plugin := PLUGIN_NAME;
                    pe_cause :=
                      CauseThrown (Some (fresh (dom (store emptyWorld))));
                    pe_showProperties := true |});
       world := setStore (<[fresh (dom (store emptyWorld))
                            := newError "Initialization error"]>
                            (store emptyWorld)) emptyWorld |}.
Proof.
  destruct (open_failure_run failingInitHost noOptions [styleScss] emptyWorld
              (Some (Fresh (newError "Initialization error"))) eq_refl)
    as (Hreported & _).
  apply (Hreported (Fresh (newError "Initialization error"))
           (newError "Initialization error")); [reflexivity|reflexivity|].
  exists "Initialization error". split; [reflexivity|discriminate].
Defined.

Lemma isCompilerInitialized_after_open_witness :
  isCompilerInitialized (syncOptions noOptions)
    (open testHost (syncOptions noOptions) emptyWorld).1.2 = true
  ∧ isCompilerInitialized noOptions
      (open failingInitHost noOptions emptyWorld).1.2 = false.
Proof.
  split.
  - destruct (isCompilerInitialized_after_open testHost (syncOptions noOptions)
                emptyWorld) as (_ & _ & Hsync & _).
    apply (Hsync 1%positive); reflexivity.
  - destruct (isCompilerInitialized_after_open failingInitHost noOptions
                emptyWorld) as (_ & Hfail & _).
    apply (Hfail (Some (Fresh (newError "Initialization error")))).
    reflexivity.
Defined.


(** ** The two modes *)

Lemma transform_sync_only host options init comp compiler file w :
  opt_sync options = true →
  transform (withAsync host init comp) options compiler file w
  = transform host options compiler file w.
Proof.
  intros Hs. unfold transform, compile. simpl. by rewrite Hs.
Qed.

Lemma transform_async_only host options init comp compiler file w :
  opt_sync options = false →
  transform (withSync host init comp) options compiler file w
  = transform host options compiler file w.
Proof.
  intros Hs. unfold transform, compile. simpl. by rewrite Hs.
Qed.

Lemma writeAll_sync_only host options init comp compiler files :
  opt_sync options = true →
  ∀ w, writeAll (withAsync host init comp) options compiler files w
       = writeAll host options compiler files w.
Proof.
  intros Hs. induction files as [|file rest IH]; intros w; simpl; [done|].
  rewrite transform_sync_only by done.
  destruct (transform host options compiler file w) as [[|file'|e|] w1];
    by rewrite ?IH.
Qed.

Lemma writeAll_async_only host options init comp compiler files :
  opt_sync options = false →
  ∀ w, writeAll (withSync host init comp) options compiler files w
       = writeAll host options compiler files w.
Proof.
  intros Hs. induction files as [|file rest IH]; intros w; simpl; [done|].
  rewrite transform_async_only by done.
  destruct (transform host options compiler file w) as [[|file'|e|] w1];
    by rewrite ?IH.
Qed.

(** A run uses the entry points of its mode only. The stream made by
    [gulpSassEmbedded.sync] never consults the asynchronous factory or
    compile function, whatever [sync] the caller passed; a stream whose
    options have no truthy [sync] never consults the synchronous ones. *)
Theorem mode_selects_entry_points host options init comp files w :
  gulpSassEmbedded_sync (withAsync host init comp) options files w
  = gulpSassEmbedded_sync host options files w
  ∧ (opt_sync options = false →
     gulpSassEmbedded (withSync host init comp) options files w
     = gulpSassEmbedded host options files w).
Proof.
  split.
  - unfold gulpSassEmbedded_sync, gulpSassEmbedded, open. simpl.
    destruct (initCompiler host) as [h|thrown].
    + by rewrite writeAll_sync_only.
    + destruct (catch thrown (store w)) as [error σ].
      by destruct (newPluginError (CauseThrown error) true σ).
  - intros Hs. unfold gulpSassEmbedded, open. rewrite Hs. simpl.
    destruct (initAsyncCompiler host) as [h|thrown].
    + by rewrite writeAll_async_only.
    + destruct (catch thrown (store w)) as [error σ].
      by destruct (newPluginError (CauseThrown error) true σ).
Qed.

Lemma mode_selects_entry_points_witness :
  gulpSassEmbedded (withSync testHost (Throw None) rejectingCompiler)
    noOptions [styleScss] emptyWorld
  = gulpSassEmbedded testHost noOptions [styleScss] emptyWorld.
Proof.
  apply (mode_selects_entry_points testHost noOptions (Throw None)
           rejectingCompiler [styleScss] emptyWorld).
  reflexivity.
Defined.

